(** * MTFIFO: a worker pool draining a FIFO queue (src/mtfifo.py)

    A shallow embedding of the [MTFIFO] class.  Python values are a small
    universe [pyval]; dictionaries are finite maps with string keys; the
    object's fields form the record [MTFIFO]; every method is a function
    on that record.

    The class runs on several threads: the callers of its methods, the
    dispatcher loop of [Start], and one [worker] closure per dispatched
    request.  Each thread is a step function over its program points; a
    step is one statement, or one block under [self.lock], and is
    atomic.  A schedule says who moves next, so a run of the program is
    an interleaving of such steps, and every run of this file is a run
    of the Python program under some scheduling of its threads.  Time is
    left out: [time.sleep] only delays its thread, and
    [join(timeout=1.0)] returns when the scheduler lets it.  A handler
    or a callback is a function of its arguments; one that calls a
    method of the pool is a caller like any other. *)

From Stdlib Require Import ZArith Lia Sorted.
From stdpp Require Import base option list gmap strings fin_maps sorting.

Set Warnings "-clear-no-such-hyp".

Set Default Proof Using "Type".

(** ** Python values *)

(** Callables are named: the caller's handlers, task functions and
    callbacks are [UserFun n]; the three lambdas installed by
    [__init__] have their own names. *)
Inductive callable :=
| DefaultSuccess      (* lambda response: print("request_handled", response) *)
| DefaultError        (* lambda response: print("error", response) *)
| DefaultEnd          (* lambda: print("all requests are handled") *)
| UserFun (n : nat).

(** A raised object. [exc_is_Exception] tells whether its class derives
    from [Exception], which is what [except Exception] catches;
    [SystemExit] or [KeyboardInterrupt] do not. *)
Record pyexc := PyExc { exc_class : string; exc_is_Exception : bool; exc_detail : string }.

#[warnings="-register-all"]
Inductive pyval :=
| PyNone
| PyBool (b : bool)
| PyInt (z : Z)
| PyStr (s : string)
| PyFun (f : callable)
| PyErr (e : pyexc)
| PyList (l : list pyval)
| PyDict (d : gmap string pyval).

(** What a call produces: a returned value or a raised object. *)
Inductive outcome :=
| Return (v : pyval)
| Raise (e : pyexc).

Definition TypeError (detail : string) : pyexc := PyExc "TypeError" true detail.
Definition ValueError (detail : string) : pyexc := PyExc "ValueError" true detail.
Definition AttributeError (detail : string) : pyexc := PyExc "AttributeError" true detail.
Definition IndexError (detail : string) : pyexc := PyExc "IndexError" true detail.
Definition KeyError (detail : string) : pyexc := PyExc "KeyError" true detail.

(** [type(v).__name__] *)
Definition py_type_name (v : pyval) : string :=
  match v with
  | PyNone => "NoneType"
  | PyBool _ => "bool"
  | PyInt _ => "int"
  | PyStr _ => "str"
  | PyFun _ => "function"
  | PyErr e => exc_class e
  | PyList _ => "list"
  | PyDict _ => "dict"
  end.

(** [bool(v)], the test of [if v] and of [v and ...]. *)
Definition py_truthy (v : pyval) : bool :=
  match v with
  | PyNone => false
  | PyBool b => b
  | PyInt z => negb (z =? 0)%Z
  | PyStr s => negb (String.eqb s "")
  | PyFun _ => true
  | PyErr _ => true
  | PyList l => match l with [] => false | _ => true end
  | PyDict d => negb (bool_decide (d = ∅))
  end.

(** [callable(v)] *)
Definition py_callable (v : pyval) : bool :=
  match v with PyFun _ => true | _ => false end.

(** [len(v)] *)
Definition py_len (v : pyval) : pyexc + nat :=
  match v with
  | PyStr s => inr (String.length s)
  | PyList l => inr (length l)
  | PyDict d => inr (size d)
  | _ => inl (TypeError ("object of type '" +:+ py_type_name v +:+ "' has no len()"))
  end.

(** [v[i]] for a non-negative integer [i]. *)
Definition py_getitem (v : pyval) (i : nat) : pyexc + pyval :=
  match v with
  | PyStr s =>
      match String.get i s with
      | Some c => inr (PyStr (String c EmptyString))
      | None => inl (IndexError "string index out of range")
      end
  | PyList l =>
      match l !! i with
      | Some x => inr x
      | None => inl (IndexError "list index out of range")
      end
  | PyDict _ => inl (KeyError "integer key")
  | _ => inl (TypeError ("'" +:+ py_type_name v +:+ "' object is not subscriptable"))
  end.

(** [r.get('func')]: only a dict has the method. *)
Definition py_get_func (r : pyval) : pyexc + pyval :=
  match r with
  | PyDict d => inr (default PyNone (d !! "func"))
  | _ => inl (AttributeError ("'" +:+ py_type_name r +:+ "' object has no attribute 'get'"))
  end.

(** ** The object *)

(** An element of [BUSY_THREADS]: [{'index': int, 'request': dict}]. *)
Record busy_record := Busy { index : nat; request : pyval }.

Record MTFIFO := mkMTFIFO {
  THREADS : pyval;                        (* options['THREADS'], the caller's list *)
  thread_count : nat;                     (* len(self.THREADS) at construction *)
  BUSY_THREADS : list busy_record;
  UNHANDLED : list pyval;                 (* queue.Queue(): put at the tail, get at the head *)
  request_success_callback : pyval;
  request_error_callback : pyval;
  request_END_callback : pyval;
  running : bool;
  dispatcher_thread : option nat          (* the Thread object, by thread number *)
}.

Definition set_BUSY_THREADS (b : list busy_record) (st : MTFIFO) : MTFIFO :=
  mkMTFIFO (THREADS st) (thread_count st) b (UNHANDLED st)
    (request_success_callback st) (request_error_callback st) (request_END_callback st)
    (running st) (dispatcher_thread st).

Definition set_UNHANDLED (q : list pyval) (st : MTFIFO) : MTFIFO :=
  mkMTFIFO (THREADS st) (thread_count st) (BUSY_THREADS st) q
    (request_success_callback st) (request_error_callback st) (request_END_callback st)
    (running st) (dispatcher_thread st).

Definition set_running (r : bool) (st : MTFIFO) : MTFIFO :=
  mkMTFIFO (THREADS st) (thread_count st) (BUSY_THREADS st) (UNHANDLED st)
    (request_success_callback st) (request_error_callback st) (request_END_callback st)
    r (dispatcher_thread st).

Definition set_dispatcher_thread (t : option nat) (st : MTFIFO) : MTFIFO :=
  mkMTFIFO (THREADS st) (thread_count st) (BUSY_THREADS st) (UNHANDLED st)
    (request_success_callback st) (request_error_callback st) (request_END_callback st)
    (running st) t.

Definition set_callbacks (s e d : pyval) (st : MTFIFO) : MTFIFO :=
  mkMTFIFO (THREADS st) (thread_count st) (BUSY_THREADS st) (UNHANDLED st)
    s e d (running st) (dispatcher_thread st).

(** [MTFIFO.__init__(options)], lines 13-31. *)
Definition __init__ (options : gmap string pyval) : pyexc + MTFIFO :=
  match options !! "THREADS" with
  | None => inl (ValueError "THREADS param must be defined")
  | Some threads =>
      match py_len threads with
      | inl e => inl e
      | inr n =>
          inr (mkMTFIFO threads n [] []
                 (PyFun DefaultSuccess) (PyFun DefaultError) (PyFun DefaultEnd)
                 false None)
      end
  end.

(** [str.upper()] on ASCII text. *)
Definition upper_ascii (c : Ascii.ascii) : Ascii.ascii :=
  let n := Ascii.nat_of_ascii c in
  if (97 <=? n) && (n <=? 122) then Ascii.ascii_of_nat (n - 32) else c.

Fixpoint upper (s : string) : string :=
  match s with
  | EmptyString => EmptyString
  | String c s' => String (upper_ascii c) (upper s')
  end.

(** [on(event, callback)], lines 40-47. *)
Definition on (event : string) (callback : pyval) (st : MTFIFO) : MTFIFO :=
  let event := upper event in
  if String.eqb event "SUCCESS" then
    set_callbacks callback (request_error_callback st) (request_END_callback st) st
  else if String.eqb event "ERROR" then
    set_callbacks (request_success_callback st) callback (request_END_callback st) st
  else if String.eqb event "END" then
    set_callbacks (request_success_callback st) (request_error_callback st) callback st
  else st.

(** [Threads] or [reqs] after [if not isinstance(x, list): x = [x]]. *)
Definition as_list (x : pyval) : list pyval :=
  match x with PyList l => l | _ => [x] end.

(** The loop of [add_threads], lines 59-61: [self.THREADS.put(t)] looks
    up the attribute [put] on [self.THREADS]; no value of [pyval] (a
    list in particular) has it, so the first element that passes the
    test raises. *)
Fixpoint add_threads_loop (threads : pyval) (ts : list pyval) : option pyexc :=
  match ts with
  | [] => None
  | t :: ts' =>
      if py_truthy t && py_callable t
      then Some (AttributeError ("'" +:+ py_type_name threads +:+ "' object has no attribute 'put'"))
      else add_threads_loop threads ts'
  end.

(** [add_threads(Threads)], lines 55-61: the state and the exception
    that leaves the call, if any. *)
Definition add_threads (Threads : pyval) (st : MTFIFO) : MTFIFO * option pyexc :=
  (st, add_threads_loop (THREADS st) (as_list Threads)).

(** The locked part of [handle_request(request, thread_idx)], lines
    97-98; the thread it then starts runs [worker_step] below. *)
Definition handle_request (request : pyval) (thread_idx : nat) (st : MTFIFO) : MTFIFO :=
  set_BUSY_THREADS (BUSY_THREADS st ++ [Busy thread_idx request]) st.

(** [get_free_threads()], lines 85-88. *)
Definition get_free_threads (st : MTFIFO) : list nat :=
  let busy_indices := map index (BUSY_THREADS st) in
  filter (λ i, i ∉ busy_indices) (seq 0 (thread_count st)).

(** The loop of [add_requests], lines 73-75, on the queue. *)
Fixpoint put_requests (rs : list pyval) (q : list pyval) : list pyval * option pyexc :=
  match rs with
  | [] => (q, None)
  | r :: rs' =>
      if py_truthy r then
        match py_get_func r with
        | inl e => (q, Some e)
        | inr f => if py_callable f then put_requests rs' (q ++ [r]) else put_requests rs' q
        end
      else put_requests rs' q
  end.

(** [Start()], lines 137-160, run by thread creation number [tid]: the
    new state and whether a dispatcher thread was started. *)
Definition Start (tid : nat) (st : MTFIFO) : MTFIFO * bool :=
  if running st then (st, false)
  else (set_dispatcher_thread (Some tid) (set_running true st), true).

(** [add_requests(reqs)], lines 69-78: the state, the exception that
    leaves the call if any, and whether a dispatcher thread was
    started. *)
Definition add_requests (tid : nat) (reqs : pyval) (st : MTFIFO) : MTFIFO * option pyexc * bool :=
  let '(q, exn) := put_requests (as_list reqs) (UNHANDLED st) in
  let st1 := set_UNHANDLED q st in
  match exn with
  | Some e => (st1, Some e, false)
  | None =>
      if negb (running st1) then let '(st2, started) := Start tid st1 in (st2, None, started)
      else (st1, None, false)
  end.

(** [Stop()] in two parts: lines 168-169 (test and clear the flag;
    [true] when the caller goes on to the join), and lines 170-172 (the
    join returns, because the dispatcher thread ended or the timeout
    passed, and the field is cleared). *)
Definition Stop_flag (st : MTFIFO) : MTFIFO * bool :=
  if running st then (set_running false st, true) else (st, false).

Definition Stop_join (st : MTFIFO) : MTFIFO := set_dispatcher_thread None st.

Definition Stop (st : MTFIFO) : MTFIFO :=
  let '(st1, joining) := Stop_flag st in
  if joining then Stop_join st1 else st1.

(** ** Events *)

Inductive callback_kind := SUCCESS | ERROR | END.

(** What the threads of the pool do that a caller, a handler or a
    callback can observe, each with the source line it stands for. A
    call ([EvExec], [EvCallback]) is the whole call, up to its return or
    its raise. *)
Inductive event :=
| EvDequeue (req : pyval)                              (* 155: request = self.UNHANDLED.get() *)
| EvMarkBusy (idx : nat) (req : pyval)                 (* 98: BUSY_THREADS.append(...) *)
| EvExec (idx : nat) (callee : pyexc + pyval) (req : pyval)
                                                       (* 104: self.THREADS[thread_idx](request) *)
| EvCallback (kind : callback_kind) (callee : pyval) (args : list pyval)
                                                       (* 105, 107, 130 *)
| EvFree (idx : nat)                                   (* 111 *)
| EvDrainCheck (unhandled_empty busy_empty : bool)     (* 125-126 *)
| EvStop (was_running : bool)                          (* 168-169 *)
| EvJoined                                             (* 170-172 *)
| EvDispatcherExit                                     (* 144: the loop test fails *)
| EvRaised (e : pyexc).                                (* an exception leaves a call *)

Section Threads.

(** The behaviour of the caller's callables: what [UserFun n] does on
    the given arguments. *)
Variable py_call : nat → list pyval → outcome.

(** Calling the object [f] on the argument list [args]. *)
Definition invoke (f : pyval) (args : list pyval) : outcome :=
  match f with
  | PyFun (UserFun n) => py_call n args
  | PyFun DefaultSuccess | PyFun DefaultError =>
      match args with
      | [_] => Return PyNone
      | _ => Raise (TypeError "<lambda>() takes 1 positional argument")
      end
  | PyFun DefaultEnd =>
      match args with
      | [] => Return PyNone
      | _ => Raise (TypeError "<lambda>() takes 0 positional arguments")
      end
  | _ => Raise (TypeError ("'" +:+ py_type_name f +:+ "' object is not callable"))
  end.

(** *** The worker thread of [handle_request], lines 101-112 *)

(** Program points of [worker]. [pending] is the exception on its way
    out of the [try] statement, if any. *)
Inductive wpc :=
| WCall                               (* 104 *)
| WSuccess (result : pyval)           (* 105 *)
| WError (e : pyexc)                  (* 106-107 *)
| WFinally (pending : option pyexc)   (* 110-111 *)
| WCheck (pending : option pyexc)     (* 112, 124-128 *)
| WStop (pending : option pyexc)      (* 129, 168-169 *)
| WJoin (pending : option pyexc)      (* 170-172 *)
| WEnd (pending : option pyexc)       (* 130 *)
| WDone (uncaught : option pyexc).

(** Where a raised object goes inside the [try] body: to the [except
    Exception] clause or straight to [finally]. *)
Definition on_raise (e : pyexc) : wpc :=
  if exc_is_Exception e then WError e else WFinally (Some e).

(** The dict built at line 107. *)
Definition error_record (req : pyval) (e : pyexc) : pyval :=
  PyDict {[ "req" := req; "error" := PyErr e ]}.

(** Line 104, [self.THREADS[thread_idx](request)]: the subscript, then
    the call of what it gave on the request as only argument. *)
Definition handler_result (st : MTFIFO) (thread_idx : nat) (request : pyval) : outcome :=
  match py_getitem (THREADS st) thread_idx with
  | inl e => Raise e
  | inr h => invoke h [request]
  end.

(** One atomic step of the worker started for [request] on slot
    [thread_idx]. *)
Definition worker_step (st : MTFIFO) (thread_idx : nat) (request : pyval) (pc : wpc)
  : MTFIFO * wpc * list event :=
  match pc with
  | WCall =>
      (st,
       match handler_result st thread_idx request with
       | Return result => WSuccess result
       | Raise e => on_raise e
       end,
       [EvExec thread_idx (py_getitem (THREADS st) thread_idx) request])
  | WSuccess result =>
      (st,
       match invoke (request_success_callback st) [result] with
       | Return _ => WFinally None
       | Raise e => on_raise e
       end,
       [EvCallback SUCCESS (request_success_callback st) [result]])
  | WError e =>
      (st,
       match invoke (request_error_callback st) [error_record request e] with
       | Return _ => WFinally None
       | Raise e' => WFinally (Some e')
       end,
       [EvCallback ERROR (request_error_callback st) [error_record request e]])
  | WFinally pending =>
      (set_BUSY_THREADS
         (filter (λ b, index b ≠ thread_idx) (BUSY_THREADS st)) st,
       WCheck pending,
       [EvFree thread_idx])
  | WCheck pending =>
      let unhandled_empty := bool_decide (UNHANDLED st = []) in
      let busy_empty := bool_decide (length (BUSY_THREADS st) = 0) in
      (st,
       if unhandled_empty && busy_empty then WStop pending else WDone pending,
       [EvDrainCheck unhandled_empty busy_empty])
  | WStop pending =>
      let '(st', joining) := Stop_flag st in
      (st', if joining then WJoin pending else WEnd pending, [EvStop joining])
  | WJoin pending =>
      (Stop_join st, WEnd pending, [EvJoined])
  | WEnd pending =>
      (st,
       match invoke (request_END_callback st) [] with
       | Return _ => WDone pending
       | Raise e => WDone (Some e)
       end,
       [EvCallback END (request_END_callback st) []])
  | WDone uncaught => (st, WDone uncaught, [])
  end.

(** *** The dispatcher thread of [Start], lines 143-156 *)

Inductive dpc :=
| DWhile                                              (* 144 *)
| DSleep                                              (* 145-149 *)
| DFor (rest : list nat)                              (* 152-155 *)
| DHandle (request : pyval) (idx : nat) (rest : list nat)   (* 156, 97-98, 114-116 *)
| DExit.

(** One atomic step of [dispatcher_loop]: the state, the next program
    point, the events, and the worker thread started, if any. *)
Definition dispatcher_step (st : MTFIFO) (pc : dpc)
  : MTFIFO * dpc * list event * option (nat * pyval) :=
  match pc with
  | DWhile =>
      if running st then (st, DSleep, [], None)
      else (st, DExit, [EvDispatcherExit], None)
  | DSleep =>
      let free_threads := get_free_threads st in
      match free_threads, UNHANDLED st with
      | [], _ | _, [] => (st, DWhile, [], None)
      | _, _ => (st, DFor free_threads, [], None)
      end
  | DFor [] => (st, DWhile, [], None)
  | DFor (idx :: rest) =>
      match UNHANDLED st with
      | [] => (st, DWhile, [], None)
      | request :: q => (set_UNHANDLED q st, DHandle request idx rest, [EvDequeue request], None)
      end
  | DHandle request idx rest =>
      (handle_request request idx st,
       DFor rest,
       [EvMarkBusy idx request],
       Some (idx, request))
  | DExit => (st, DExit, [], None)
  end.

(** Nobody else touches the object. *)
Definition quiet : nat → MTFIFO → MTFIFO := λ _ st, st.

(** The dispatcher thread run until it is back at the loop test, while
    the rest of the program changes the object between its steps:
    [env k] is what the other threads and callers do to the object
    before the dispatcher's step number [k]. The result is the state,
    the program point, the events and the workers started, in order. *)
Fixpoint dispatcher_run (env : nat → MTFIFO → MTFIFO) (fuel k : nat)
    (st : MTFIFO) (pc : dpc)
  : MTFIFO * dpc * list event * list (nat * pyval) :=
  match fuel with
  | 0 => (st, pc, [], [])
  | S fuel' =>
      let '(st1, pc1, evs, spawned) := dispatcher_step (env k st) pc in
      match pc1 with
      | DWhile | DExit => (st1, pc1, evs, option_list spawned)
      | _ =>
          let '(st2, pc2, evs', spawned') := dispatcher_run env fuel' (S k) st1 pc1 in
          (st2, pc2, evs ++ evs', option_list spawned ++ spawned')
      end
  end.

(** One pass of the loop body, lines 145-156, from the sleep to the next
    loop test, with nobody in between. Each free slot costs two
    steps. *)
Definition dispatcher_pass (st : MTFIFO) : MTFIFO * dpc * list event * list (nat * pyval) :=
  dispatcher_run quiet (2 * thread_count st + 2) 0 st DSleep.

(** The worker thread run to its end, among the others in the same
    way. *)
Fixpoint worker_run (env : nat → MTFIFO → MTFIFO) (fuel k : nat)
    (st : MTFIFO) (thread_idx : nat) (request : pyval) (pc : wpc)
  : MTFIFO * wpc * list event :=
  match fuel with
  | 0 => (st, pc, [])
  | S fuel' =>
      match pc with
      | WDone _ => (st, pc, [])
      | _ =>
          let '(st1, pc1, evs) := worker_step (env k st) thread_idx request pc in
          let '(st2, pc2, evs') := worker_run env fuel' (S k) st1 thread_idx request pc1 in
          (st2, pc2, evs ++ evs')
      end
  end.

(** [checkIfDone()], lines 123-130, with nobody in between: the worker
    from its drain check to its end (slot and request play no part
    there). The result is the state, the exception that leaves the
    call, if any, and the events. *)
Definition checkIfDone (st : MTFIFO) : MTFIFO * option pyexc * list event :=
  let '(st', pc, evs) := worker_run quiet 4 0 st 0 PyNone (WCheck None) in
  (st', match pc with WDone u => u | _ => None end, evs).

(** The life of one task from its dispatch on: [handle_request] marks
    the slot busy and the worker runs to its end (nine steps at most). *)
Definition task_lifecycle (env : nat → MTFIFO → MTFIFO)
    (st : MTFIFO) (thread_idx : nat) (request : pyval)
  : MTFIFO * wpc * list event :=
  let '(st', pc, evs) :=
    worker_run env 9 0 (handle_request request thread_idx st) thread_idx request WCall in
  (st', pc, EvMarkBusy thread_idx request :: evs).

(** *** The whole program: the object, its threads, and who moves next *)

Inductive thread :=
| TDispatcher (pc : dpc)
| TWorker (thread_idx : nat) (request : pyval) (pc : wpc)
| TStop (joined : bool).            (* a caller inside [Stop()], at the join of line 171 *)

Inductive actor := Caller | Thread (tid : nat).

Record system := mkSystem {
  pool : MTFIFO;
  threads : list thread;            (* by creation number *)
  trace : list (actor * event)      (* oldest first *)
}.

(** A move: a caller's method call, or the next atomic step of a
    thread. *)
Inductive action :=
| Call_on (event : string) (callback : pyval)
| Call_add_threads (Threads : pyval)
| Call_add_requests (reqs : pyval)
| Call_Start
| Call_Stop
| Step (tid : nat).

Definition tag (a : actor) (evs : list event) : list (actor * event) := map (pair a) evs.

Definition raised (exn : option pyexc) : list event :=
  match exn with Some e => [EvRaised e] | None => [] end.

Definition new_dispatcher (started : bool) : list thread :=
  if started then [TDispatcher DWhile] else [].

Definition thread_step (tid : nat) (t : thread) (s : system) : option system :=
  match t with
  | TDispatcher DExit => None
  | TDispatcher pc =>
      let '(st, pc', evs, spawned) := dispatcher_step (pool s) pc in
      Some (mkSystem st
              (<[tid := TDispatcher pc']> (threads s)
                 ++ match spawned with Some (idx, req) => [TWorker idx req WCall] | None => [] end)
              (trace s ++ tag (Thread tid) evs))
  | TWorker _ _ (WDone _) => None
  | TWorker idx req pc =>
      let '(st, pc', evs) := worker_step (pool s) idx req pc in
      Some (mkSystem st (<[tid := TWorker idx req pc']> (threads s))
              (trace s ++ tag (Thread tid) evs))
  | TStop true => None
  | TStop false =>
      Some (mkSystem (Stop_join (pool s)) (<[tid := TStop true]> (threads s))
              (trace s ++ [(Thread tid, EvJoined)]))
  end.

(** One move of the program; [None] when the move is not possible (no
    such thread, or the thread has ended). *)
Definition sys_step (a : action) (s : system) : option system :=
  match a with
  | Call_on event callback =>
      Some (mkSystem (on event callback (pool s)) (threads s) (trace s))
  | Call_add_threads Threads =>
      let '(st, exn) := add_threads Threads (pool s) in
      Some (mkSystem st (threads s) (trace s ++ tag Caller (raised exn)))
  | Call_add_requests reqs =>
      let '(st, exn, started) := add_requests (length (threads s)) reqs (pool s) in
      Some (mkSystem st (threads s ++ new_dispatcher started)
              (trace s ++ tag Caller (raised exn)))
  | Call_Start =>
      let '(st, started) := Start (length (threads s)) (pool s) in
      Some (mkSystem st (threads s ++ new_dispatcher started) (trace s))
  | Call_Stop =>
      let '(st, joining) := Stop_flag (pool s) in
      Some (mkSystem st (threads s ++ (if joining then [TStop false] else []))
              (trace s ++ [(Caller, EvStop joining)]))
  | Step tid =>
      match threads s !! tid with
      | Some t => thread_step tid t s
      | None => None
      end
  end.

Fixpoint run (schedule : list action) (s : system) : option system :=
  match schedule with
  | [] => Some s
  | a :: schedule' =>
      match sys_step a s with
      | Some s' => run schedule' s'
      | None => None
      end
  end.

(** [pool = MTFIFO(options)] *)
Definition boot (options : gmap string pyval) : pyexc + system :=
  match __init__ options with
  | inl e => inl e
  | inr st => inr (mkSystem st [] [])
  end.

End Threads.

(** ** Vocabulary of the properties *)

(** The object after the pairs [(slot, request)] were dispatched: the
    requests left the head of the queue and the records were appended. *)
Definition dispatched (pairs : list (nat * pyval)) (st : MTFIFO) : MTFIFO :=
  set_BUSY_THREADS (BUSY_THREADS st ++ map (λ p, Busy p.1 p.2) pairs)
    (set_UNHANDLED (drop (length pairs) (UNHANDLED st)) st).



Definition is_drain_event (e : event) : bool :=
  match e with
  | EvStop _ | EvJoined | EvCallback END _ _ => true
  | _ => false
  end.

(** The objects a thread of the pool called. *)
Definition callee_of (e : event) : list pyval :=
  match e with
  | EvExec _ (inr h) _ => [h]
  | EvCallback _ f _ => [f]
  | _ => []
  end.

Definition callees (evs : list event) : list pyval := evs ≫= callee_of.




(** No dispatcher loop is alive. *)
Definition dispatcher_ended (t : thread) : bool :=
  match t with TDispatcher DExit => true | TDispatcher _ => false | _ => true end.


(** Moves that start the dispatcher: [Start()] and a submission. *)
Definition restarts (a : action) : bool :=
  match a with Call_Start | Call_add_requests _ => true | _ => false end.


(** At most one task per slot, and what the dispatcher needs for it. *)
Definition slots_distinct (st : MTFIFO) : Prop :=
  NoDup (map index (BUSY_THREADS st)).

(** The slots a dispatcher still means to dispatch to in its pass. *)
Definition pending (t : thread) : list nat :=
  match t with
  | TDispatcher (DFor rest) => rest
  | TDispatcher (DHandle _ idx rest) => idx :: rest
  | _ => []
  end.

Definition pending_is_free (s : system) : Prop :=
  ∀ tid t, threads s !! tid = Some t →
    NoDup (pending t) ∧ ∀ i, i ∈ pending t → i ∉ map index (BUSY_THREADS (pool s)).

(** At most one dispatcher loop is alive. *)
Definition one_dispatcher (s : system) : Prop :=
  ∀ i j t t',
    threads s !! i = Some t → threads s !! j = Some t' →
    dispatcher_ended t = false → dispatcher_ended t' = false → i = j.

Section Run_vocabulary.
Variable py_call : nat → list pyval → outcome.

(** [P] holds before every move of the schedule. *)
Fixpoint always (P : system → Prop) (schedule : list action) (s : system) : Prop :=
  match schedule with
  | [] => True
  | a :: schedule' =>
      P s ∧
      match sys_step py_call a s with
      | Some s' => always P schedule' s'
      | None => True
      end
  end.

End Run_vocabulary.

(** The rest of a worker's life, seen from one of its program points. *)
Section Worker_vocabulary.
Variable py_call : nat → list pyval → outcome.
Variable thread_idx : nat.
Variable request : pyval.




(** What the worker leaves of the object: its slot's records are gone,
    and the flag may have been cleared by the drain check. *)
Definition left_behind (st st' : MTFIFO) : Prop :=
  THREADS st' = THREADS st ∧
  thread_count st' = thread_count st ∧
  UNHANDLED st' = UNHANDLED st ∧
  BUSY_THREADS st' = filter (λ b, index b ≠ thread_idx) (BUSY_THREADS st) ∧
  (running st' = running st ∨ running st' = false).

(** Only a callback's own exception can leave the worker. *)
Definition from_callbacks (st : MTFIFO) (u : option pyexc) : Prop :=
  u = None ∨
  (∃ args e, invoke py_call (request_success_callback st) args = Raise e ∧ u = Some e) ∨
  (∃ args e, invoke py_call (request_error_callback st) args = Raise e ∧ u = Some e) ∨
  (∃ e, invoke py_call (request_END_callback st) [] = Raise e ∧ u = Some e).

End Worker_vocabulary.

(** ** A concrete program to run the model on *)

(** The callables of [examples/example_usage.py], and one that fails:
    - [UserFun 0] is [thread_func]: [request['func'](request['params'])],
      with [UserFun 7] as the only task function;
    - [UserFun 1] is a handler that raises [RuntimeError];
    - [UserFun 2] is a handler that calls [sys.exit()];
    - [UserFun 7] is [test_req_handling_function]: it returns its
      parameter. *)
Definition demo_call (n : nat) (args : list pyval) : outcome :=
  match n, args with
  | 0, [PyDict d] =>
      match d !! "func", d !! "params" with
      | Some (PyFun (UserFun 7)), Some params => Return params
      | _, _ => Raise (TypeError "bad request")
      end
  | 1, _ => Raise (PyExc "RuntimeError" true "boom")
  | 2, _ => Raise (PyExc "SystemExit" false "")
  | 7, [params] => Return params
  | _, _ => Return PyNone
  end.

Definition thread_func : pyval := PyFun (UserFun 0).

(** [{'params': k, 'func': test_req_handling_function}] *)
Definition task (k : Z) : pyval :=
  PyDict {[ "params" := PyInt k; "func" := PyFun (UserFun 7) ]}.

(** [{'THREADS': handlers}] *)
Definition options_with (handlers : list pyval) : gmap string pyval :=
  {[ "THREADS" := PyList handlers ]}.

(** The program after [pool = MTFIFO({'THREADS': handlers})]; a failed
    construction leaves a program with no slots. *)
Definition booted (handlers : list pyval) : system :=
  match boot (options_with handlers) with
  | inr s => s
  | inl _ => mkSystem (mkMTFIFO PyNone 0 [] [] PyNone PyNone PyNone false None) [] []
  end.

Definition steps (tid n : nat) : list action := replicate n (Step tid).

(** The number of times the END callback was called. *)
Definition is_END (e : actor * event) : bool :=
  match e with (_, EvCallback END _ _) => true | _ => false end.

Definition count_END (s : system) : nat := length (filter is_END (trace s)).

(** The program after a schedule, from [MTFIFO({'THREADS': handlers})]. *)
Definition after (handlers : list pyval) (schedule : list action) : system :=
  default (booted handlers) (run demo_call schedule (booted handlers)).

(** Three slots, slot 1 busy, three requests waiting. *)
Definition three_slots_one_busy : MTFIFO :=
  mkMTFIFO (PyList [thread_func; thread_func; thread_func]) 3
    [Busy 1 (task 9)] [task 1; task 2; task 3]
    (PyFun DefaultSuccess) (PyFun DefaultError) (PyFun DefaultEnd) true (Some 0).


(** *** Two batches, one slot

    [pool.add_requests([task 1])]; the dispatcher (thread 0) dispatches
    it to slot 0 and goes back to sleep; the worker (thread 1) runs the
    task, frees the slot, finds the pool drained and clears the flag in
    [Stop()], where it waits for the dispatcher. At that moment the
    caller submits [task 2] and [task 3]: the flag is down, so
    [add_requests] calls [Start()], which starts a second dispatcher
    (thread 2). The first one wakes up with the flag up again and goes
    on. Both read the free slots before either marks slot 0 busy. *)
Definition two_batches_schedule : list action :=
  [Call_add_requests (PyList [task 1])]
    ++ steps 0 6                 (* dispatcher 0: task 1 to slot 0, loop test, sleep *)
    ++ steps 1 5                 (* worker 1: handler, SUCCESS, free, check, flag cleared *)
    ++ [Call_add_requests (PyList [task 2; task 3])]   (* starts dispatcher 2 *)
    ++ [Step 0]                  (* dispatcher 0 wakes: free = [0] *)
    ++ steps 2 2                 (* dispatcher 2: loop test, wakes: free = [0] *)
    ++ steps 0 2                 (* dispatcher 0: gets task 2, marks slot 0 *)
    ++ steps 2 2.                (* dispatcher 2: gets task 3, marks slot 0 *)

(** *** One batch of two tasks on two slots

    Both tasks are dispatched in one pass, both handlers return, both
    workers free their slot, and only then each runs its drain
    check. *)
Definition one_batch_schedule : list action :=
  [Call_add_requests (PyList [task 1; task 2])]
    ++ steps 0 8                 (* dispatcher 0: both tasks dispatched, loop test, sleep *)
    ++ steps 1 2 ++ steps 2 2    (* workers 1 and 2: handler, SUCCESS *)
    ++ [Step 1; Step 2]          (* both free their slot *)
    ++ steps 1 2                 (* worker 1: check, Stop clears the flag *)
    ++ steps 0 2                 (* dispatcher 0 wakes, nothing to do; loop test, exit *)
    ++ steps 1 2                 (* worker 1: the join returns, END *)
    ++ steps 2 3.                (* worker 2: check, Stop (flag already down), END *)

(** *** [Stop()] with one task in flight and two pending, one slot *)





(** * Properties *)

(** A conjunction of closed facts, each settled by running the model. *)
Ltac by_running :=
  repeat match goal with |- _ ∧ _ => split end; vm_compute; reflexivity.

(** ** The free slots and one pass of the dispatcher *)

Lemma quiet_id (k : nat) (st : MTFIFO) : quiet k st = st.
Proof. reflexivity. Qed.




Lemma get_free_threads_spec (st : MTFIFO) (i : nat) :
  i ∈ get_free_threads st ↔ i < thread_count st ∧ i ∉ map index (BUSY_THREADS st).
Proof.
  unfold get_free_threads. rewrite list_elem_of_filter, elem_of_seq.
  split; intros; split; try tauto; lia.
Qed.









Example dispatcher_pass_example :
  get_free_threads three_slots_one_busy = [0; 2] ∧
  ∃ st',
    dispatcher_pass three_slots_one_busy
    = (st', DWhile,
       [EvDequeue (task 1); EvMarkBusy 0 (task 1);
        EvDequeue (task 2); EvMarkBusy 2 (task 2)],
       [(0, task 1); (2, task 2)]) ∧
    BUSY_THREADS st' = [Busy 1 (task 9); Busy 0 (task 1); Busy 2 (task 2)] ∧
    UNHANDLED st' = [task 3].
Proof.
  split; [vm_compute; reflexivity|].
  exists (dispatched [(0, task 1); (2, task 2)] three_slots_one_busy). by_running.
Qed.

(** ** One worker thread, whatever the other threads do *)

Section Worker_facts.
Variable py_call : nat → list pyval → outcome.
Variable thread_idx : nat.
Variable request : pyval.

Implicit Types (env : nat → MTFIFO → MTFIFO) (st : MTFIFO) (pc : wpc).

Lemma worker_run_step env fuel k st pc :
  (∀ u, pc ≠ WDone u) →
  worker_run py_call env (S fuel) k st thread_idx request pc
  = let '(st1, pc1, evs) := worker_step py_call (env k st) thread_idx request pc in
    let '(st2, pc2, evs') := worker_run py_call env fuel (S k) st1 thread_idx request pc1 in
    (st2, pc2, evs ++ evs').
Proof. destruct pc; intros H; try reflexivity. by destruct (H uncaught). Qed.

Lemma worker_run_done env fuel k st u :
  worker_run py_call env fuel k st thread_idx request (WDone u) = (st, WDone u, []).
Proof. by destruct fuel. Qed.










End Worker_facts.


(** ** One worker thread, with nobody in between *)

Section Quiet_worker.
Variable py_call : nat → list pyval → outcome.
Variable thread_idx : nat.
Variable request : pyval.

Implicit Types (st : MTFIFO) (pc : wpc).

Local Arguments worker_run : simpl never.

Ltac wstep := rewrite worker_run_step by discriminate; rewrite !quiet_id; simpl.

Lemma quiet_from_WFinally fuel k st p :
  5 ≤ fuel →
  ∃ st' u ue be tail,
    worker_run py_call quiet fuel k st thread_idx request (WFinally p)
    = (st', WDone u, EvFree thread_idx :: EvDrainCheck ue be :: tail) ∧
    Forall (λ e, is_drain_event e = true) tail ∧
    left_behind thread_idx st st' ∧
    callees tail ⊆ [request_END_callback st] ∧
    (u = p ∨ ∃ e, invoke py_call (request_END_callback st) [] = Raise e ∧ u = Some e).
Proof.
  intros Hf. destruct fuel as [|[|[|[|[|fuel]]]]]; try lia. clear Hf.
  destruct st as [T n B q cs ce cd r d].
  do 2 wstep.
  destruct (bool_decide (q = []) &&
            bool_decide (length (filter (λ b, index b ≠ thread_idx) B) = 0)).
  - wstep. destruct r; simpl.
    + do 2 wstep.
      destruct (invoke py_call cd []) as [v|e] eqn:Hend; rewrite worker_run_done;
        do 5 eexists; (split; [reflexivity|]);
        (split; [repeat (apply Forall_cons_2; [reflexivity|]); apply Forall_nil_2|]);
        (split; [by repeat split; simpl; auto|]);
        (split; [simpl; set_solver|]); eauto.
    + wstep.
      destruct (invoke py_call cd []) as [v|e] eqn:Hend; rewrite worker_run_done;
        do 5 eexists; (split; [reflexivity|]);
        (split; [repeat (apply Forall_cons_2; [reflexivity|]); apply Forall_nil_2|]);
        (split; [by repeat split; simpl; auto|]);
        (split; [simpl; set_solver|]); eauto.
  - rewrite worker_run_done. do 5 eexists. split; [reflexivity|].
    split; [constructor|]. split; [by repeat split; simpl; auto|].
    split; [simpl; set_solver|]. by left.
Qed.

Lemma quiet_from_WError fuel k st e :
  6 ≤ fuel →
  ∃ st' u ue be tail,
    worker_run py_call quiet fuel k st thread_idx request (WError e)
    = (st', WDone u,
       EvCallback ERROR (request_error_callback st) [error_record request e]
         :: EvFree thread_idx :: EvDrainCheck ue be :: tail) ∧
    Forall (λ e, is_drain_event e = true) tail ∧
    left_behind thread_idx st st' ∧
    callees tail ⊆ [request_END_callback st] ∧
    from_callbacks py_call st u.
Proof.
  intros Hf. destruct fuel as [|fuel]; [lia|]. wstep.
  destruct (invoke py_call (request_error_callback st) [error_record request e])
    as [v|e'] eqn:Herr.
  all: edestruct (quiet_from_WFinally fuel (S k) st)
    as (st' & u & ue & be & tail & -> & Ht & Hl & Hc & Hu); [lia|].
  all: exists st', u, ue, be, tail; repeat (split; [done|]).
  all: unfold from_callbacks; destruct Hu as [->|(e2 & He2 & ->)]; eauto 10.
Qed.

Lemma quiet_from_WSuccess fuel k st result :
  7 ≤ fuel →
  ∃ st' u more ue be tail,
    worker_run py_call quiet fuel k st thread_idx request (WSuccess result)
    = (st', WDone u,
       EvCallback SUCCESS (request_success_callback st) [result]
         :: more ++ EvFree thread_idx :: EvDrainCheck ue be :: tail) ∧
    (more = [] ∨
     ∃ e, invoke py_call (request_success_callback st) [result] = Raise e ∧
          exc_is_Exception e = true ∧
          more = [EvCallback ERROR (request_error_callback st) [error_record request e]]) ∧
    Forall (λ e, is_drain_event e = true) tail ∧
    left_behind thread_idx st st' ∧
    callees tail ⊆ [request_END_callback st] ∧
    from_callbacks py_call st u.
Proof.
  intros Hf. destruct fuel as [|fuel]; [lia|]. wstep.
  destruct (invoke py_call (request_success_callback st) [result]) as [v|e] eqn:Hs.
  - edestruct (quiet_from_WFinally fuel (S k) st)
      as (st' & u & ue & be & tail & -> & Ht & Hl & Hc & Hu); [lia|].
    exists st', u, [], ue, be, tail. split; [done|]. split; [by left|].
    repeat (split; [done|]).
    unfold from_callbacks; destruct Hu as [->|(e2 & He2 & ->)]; eauto 10.
  - unfold on_raise. destruct (exc_is_Exception e) eqn:Hexc.
    + edestruct (quiet_from_WError fuel (S k) st e)
        as (st' & u & ue & be & tail & -> & Ht & Hl & Hc & Hu); [lia|].
      exists st', u, [EvCallback ERROR (request_error_callback st) [error_record request e]],
        ue, be, tail.
      split; [done|]. split; [right; by exists e|]. by repeat (split; [done|]).
    + edestruct (quiet_from_WFinally fuel (S k) st)
        as (st' & u & ue & be & tail & -> & Ht & Hl & Hc & Hu); [lia|].
      exists st', u, [], ue, be, tail. split; [done|]. split; [by left|].
      repeat (split; [done|]).
      unfold from_callbacks; destruct Hu as [->|(e2 & He2 & ->)]; eauto 10.
Qed.

(** *** The drain check, lines 123-130 *)

(** When the queue and the busy list are empty, [checkIfDone] calls
    [Stop()] and then the END callback, once; the flag is down
    afterwards. *)
Lemma drain_check_calls_Stop_then_END fuel k st p :
  4 ≤ fuel → UNHANDLED st = [] → BUSY_THREADS st = [] →
  ∃ st' u,
    worker_run py_call quiet fuel k st thread_idx request (WCheck p)
    = (st', WDone u,
       [EvDrainCheck true true; EvStop (running st)]
         ++ (if running st then [EvJoined] else [])
         ++ [EvCallback END (request_END_callback st) []]) ∧
    running st' = false.
Proof.
  intros Hf Hq Hb. destruct fuel as [|[|[|[|fuel]]]]; try lia.
  destruct st as [T n B q cs ce cd r d]. simpl in Hq, Hb. subst q B.
  do 2 wstep. destruct r; simpl.
  - do 2 wstep.
    destruct (invoke py_call cd []); rewrite worker_run_done; by do 2 eexists.
  - wstep.
    destruct (invoke py_call cd []); rewrite worker_run_done; by do 2 eexists.
Qed.

Lemma checkIfDone_drained st :
  UNHANDLED st = [] → BUSY_THREADS st = [] →
  ∃ st' u,
    checkIfDone py_call st
    = (st', u,
       [EvDrainCheck true true; EvStop (running st)]
         ++ (if running st then [EvJoined] else [])
         ++ [EvCallback END (request_END_callback st) []]) ∧
    running st' = false ∧
    UNHANDLED st' = [] ∧ BUSY_THREADS st' = [].
Proof.
  intros Hq Hb. unfold checkIfDone.
  destruct st as [T n B q cs ce cd r d]. simpl in Hq, Hb. subst q B.
  do 2 wstep. destruct r; simpl; repeat wstep;
    destruct (invoke py_call cd []); rewrite ?worker_run_done;
    do 2 eexists; (split; [reflexivity|]); by repeat split.
Qed.

(** Otherwise it does nothing. *)
Lemma drain_check_not_drained fuel k st p :
  1 ≤ fuel → UNHANDLED st ≠ [] ∨ BUSY_THREADS st ≠ [] →
  ∃ u b,
    worker_run py_call quiet fuel k st thread_idx request (WCheck p)
    = (st, WDone p, [EvDrainCheck u b]) ∧ u && b = false.
Proof.
  intros Hf Hne. destruct fuel as [|fuel]; [lia|].
  rewrite worker_run_step by discriminate. rewrite quiet_id. cbn [worker_step].
  assert (Hcond : bool_decide (UNHANDLED st = []) &&
                  bool_decide (length (BUSY_THREADS st) = 0) = false).
  { apply andb_false_iff. destruct Hne as [Hq|Hb]; [left|right];
      apply bool_decide_eq_false; [done|].
    by destruct (BUSY_THREADS st). }
  rewrite Hcond, worker_run_done. by do 2 eexists.
Qed.

End Quiet_worker.



Lemma handle_request_fields (request : pyval) (thread_idx : nat) (st : MTFIFO) :
  THREADS (handle_request request thread_idx st) = THREADS st ∧
  request_success_callback (handle_request request thread_idx st)
    = request_success_callback st ∧
  request_error_callback (handle_request request thread_idx st)
    = request_error_callback st ∧
  request_END_callback (handle_request request thread_idx st) = request_END_callback st.
Proof. by destruct st. Qed.

(** C10. Executing a dispatched task is one call: the handler found at
    [THREADS[thread_idx]] is called on the whole request as its only
    argument. When that call returns a value, the SUCCESS callback is
    called on exactly that value. Over the whole life of the task the
    pool calls nothing but that handler and the three registered
    callbacks; so the request's own 'func', unless it is one of those
    four objects, is never called by the pool. *)
Theorem worker_calls_the_slot_handler (py_call : nat → list pyval → outcome)
    (st : MTFIFO) (thread_idx : nat) (request h : pyval) :
  py_getitem (THREADS st) thread_idx = inr h →
  let called :=
    [h; request_success_callback st; request_error_callback st; request_END_callback st] in
  handler_result py_call (handle_request request thread_idx st) thread_idx request
  = invoke py_call h [request] ∧
  ∃ st' uncaught evs,
    task_lifecycle py_call quiet st thread_idx request
    = (st', WDone uncaught,
       EvMarkBusy thread_idx request :: EvExec thread_idx (inr h) request :: evs) ∧
    (∀ result, invoke py_call h [request] = Return result →
       ∃ rest, evs = EvCallback SUCCESS (request_success_callback st) [result] :: rest) ∧
    callees (EvExec thread_idx (inr h) request :: evs) ⊆ called ∧
    (∀ d func, request = PyDict d → d !! "func" = Some func → func ∉ called →
       func ∉ callees (EvExec thread_idx (inr h) request :: evs)).
Proof.
  intros Hget called. unfold task_lifecycle.
  destruct (handle_request_fields request thread_idx st) as (HT & Hs & He & Hd).
  set (st0 := handle_request request thread_idx st) in *.
  assert (Hres : handler_result py_call st0 thread_idx request = invoke py_call h [request]).
  { unfold handler_result. by rewrite HT, Hget. }
  split; [exact Hres|].
  rewrite worker_run_step by discriminate. rewrite quiet_id. cbn [worker_step].
  rewrite HT, Hget, Hres.
  assert (Hgoal : ∀ (st' : MTFIFO) (u : option pyexc) (evs : list event),
    (∀ result, invoke py_call h [request] = Return result →
       ∃ rest, evs = EvCallback SUCCESS (request_success_callback st) [result] :: rest) →
    callees evs ⊆ called →
    ∃ st'0 uncaught evs0,
      (st', WDone u, EvMarkBusy thread_idx request :: [EvExec thread_idx (inr h) request] ++ evs)
      = (st'0, WDone uncaught,
         EvMarkBusy thread_idx request :: EvExec thread_idx (inr h) request :: evs0) ∧
      (∀ result, invoke py_call h [request] = Return result →
         ∃ rest, evs0 = EvCallback SUCCESS (request_success_callback st) [result] :: rest) ∧
      callees (EvExec thread_idx (inr h) request :: evs0) ⊆ called ∧
      (∀ d func, request = PyDict d → d !! "func" = Some func → func ∉ called →
         func ∉ callees (EvExec thread_idx (inr h) request :: evs0))).
  { intros st' u evs Hsucc Hsub. exists st', u, evs. split; [reflexivity|].
    split; [exact Hsucc|].
    assert (Hall : callees (EvExec thread_idx (inr h) request :: evs) ⊆ called).
    { unfold callees in *. simpl. subst called. set_solver. }
    split; [exact Hall|]. intros d func _ _ Hnot Hin. apply Hnot, Hall, Hin. }
  destruct (invoke py_call h [request]) as [result|e] eqn:Hinv.
  - edestruct (quiet_from_WSuccess py_call thread_idx request 8 1 st0 result)
      as (st' & u & more & ue & be & tail & -> & Hmore & Ht & Hl & Hc & Hu); [lia|].
    rewrite Hs, He in *. rewrite Hd in Hc. apply Hgoal.
    + intros r [= <-]. by eexists.
    + unfold callees in *. subst called.
      destruct Hmore as [->|(e & _ & _ & ->)]; simpl; set_solver.
  - unfold on_raise. destruct (exc_is_Exception e).
    + edestruct (quiet_from_WError py_call thread_idx request 8 1 st0 e)
        as (st' & u & ue & be & tail & -> & Ht & Hl & Hc & Hu); [lia|].
      rewrite He in *. rewrite Hd in Hc. apply Hgoal; [discriminate|].
      unfold callees in *. subst called. simpl. set_solver.
    + edestruct (quiet_from_WFinally py_call thread_idx request 8 1 st0 (Some e))
        as (st' & u & ue & be & tail & -> & Ht & Hl & Hc & Hu); [lia|].
      rewrite Hd in Hc. apply Hgoal; [discriminate|].
      unfold callees in *. subst called. simpl. set_solver.
Qed.

(** ** Submission, construction and added workers *)





Lemma init_keeps_list (options : gmap string pyval) (handlers : list pyval) :
  options !! "THREADS" = Some (PyList handlers) →
  __init__ options
  = inr (mkMTFIFO (PyList handlers) (length handlers) [] []
           (PyFun DefaultSuccess) (PyFun DefaultError) (PyFun DefaultEnd) false None).
Proof. intros H. unfold __init__. by rewrite H. Qed.

(** [Stop()] changes the flag and the thread field, nothing else. *)
Lemma Stop_only_clears_the_flag (st : MTFIFO) :
  running (Stop st) = false ∧
  UNHANDLED (Stop st) = UNHANDLED st ∧
  BUSY_THREADS (Stop st) = BUSY_THREADS st ∧
  THREADS (Stop st) = THREADS st ∧ thread_count (Stop st) = thread_count st.
Proof. unfold Stop, Stop_flag. destruct (running st) eqn:Hr; by simpl. Qed.

Lemma add_threads_adds_nothing (Threads : pyval) (st : MTFIFO) :
  (add_threads Threads st).1 = st.
Proof. reflexivity. Qed.

Lemma add_threads_raises (Threads : pyval) (st : MTFIFO) :
  Exists (λ t, py_truthy t && py_callable t = true) (as_list Threads) →
  (add_threads Threads st).2
  = Some (AttributeError ("'" +:+ py_type_name (THREADS st) +:+ "' object has no attribute 'put'")).
Proof.
  unfold add_threads. simpl. induction 1 as [t ts Ht|t ts _ IH]; simpl.
  - by rewrite Ht.
  - destruct (py_truthy t && py_callable t); [done|exact IH].
Qed.

(** ** What a move can change *)

Section System_facts.
Variable py_call : nat → list pyval → outcome.

(** The fields no thread ever writes, and the queue, which only the
    dispatcher and a submission write. *)
Lemma worker_step_keeps (st : MTFIFO) (idx : nat) (req : pyval) (pc : wpc) :
  let '(st', _, _) := worker_step py_call st idx req pc in
  THREADS st' = THREADS st ∧ thread_count st' = thread_count st ∧
  UNHANDLED st' = UNHANDLED st ∧ BUSY_THREADS st' `sublist_of` BUSY_THREADS st.
Proof.
  destruct pc; simpl; try done.
  - repeat split. apply sublist_filter.
  - unfold Stop_flag. by destruct (running st).
Qed.

Lemma dispatcher_step_keeps (st : MTFIFO) (pc : dpc) :
  let '(st', _, _, _) := dispatcher_step st pc in
  THREADS st' = THREADS st ∧ thread_count st' = thread_count st.
Proof.
  destruct pc as [| |[|idx rest]| |]; simpl; try done.
  - by destruct (running st).
  - by destruct (get_free_threads st), (UNHANDLED st).
  - by destruct (UNHANDLED st).
Qed.

Lemma on_keeps (event : string) (callback : pyval) (st : MTFIFO) :
  THREADS (on event callback st) = THREADS st ∧
  thread_count (on event callback st) = thread_count st ∧
  UNHANDLED (on event callback st) = UNHANDLED st ∧
  BUSY_THREADS (on event callback st) = BUSY_THREADS st.
Proof. unfold on. by repeat case_match. Qed.

Lemma add_requests_keeps (tid : nat) (reqs : pyval) (st : MTFIFO) :
  let '(st', _, _) := add_requests tid reqs st in
  THREADS st' = THREADS st ∧ thread_count st' = thread_count st.
Proof.
  unfold add_requests. destruct (put_requests (as_list reqs) (UNHANDLED st)) as [q [e|]].
  - done.
  - unfold Start. simpl. by destruct (running st).
Qed.

(** The slot count and the handler list are fixed by the constructor:
    no move of the program changes them. *)
Lemma sys_step_thread_count (a : action) (s s' : system) :
  sys_step py_call a s = Some s' →
  thread_count (pool s') = thread_count (pool s) ∧ THREADS (pool s') = THREADS (pool s).
Proof.
  destruct a as [event cb|Threads|reqs| | |tid]; simpl.
  - intros [= <-]. simpl. by destruct (on_keeps event cb (pool s)) as (-> & -> & _).
  - by intros [= <-].
  - pose proof (add_requests_keeps (length (threads s)) reqs (pool s)) as H.
    destruct (add_requests (length (threads s)) reqs (pool s)) as [[st e] started].
    intros [= <-]. simpl. by destruct H as [-> ->].
  - unfold Start. destruct (running (pool s)); by intros [= <-].
  - unfold Stop_flag. destruct (running (pool s)); by intros [= <-].
  - destruct (threads s !! tid) as [t|]; [|done]. destruct t as [pc|idx req pc|[|]]; simpl.
    + pose proof (dispatcher_step_keeps (pool s) pc) as H.
      destruct pc; try done;
        destruct (dispatcher_step (pool s) _) as [[[st pc'] evs] sp];
        intros [= <-]; simpl; by destruct H as [-> ->].
    + pose proof (worker_step_keeps (pool s) idx req pc) as H.
      destruct pc; try done;
        destruct (worker_step py_call (pool s) idx req _) as [[st pc'] evs];
        intros [= <-]; simpl; by destruct H as (-> & -> & _).
    + done.
    + by intros [= <-].
Qed.

Lemma run_thread_count (schedule : list action) :
  ∀ s s', run py_call schedule s = Some s' →
    thread_count (pool s') = thread_count (pool s) ∧ THREADS (pool s') = THREADS (pool s).
Proof.
  induction schedule as [|a schedule IH]; intros s s'; simpl.
  - by intros [= <-].
  - destruct (sys_step py_call a s) as [s1|] eqn:Hstep; [|done].
    intros Hrun. apply IH in Hrun as [-> ->]. by apply sys_step_thread_count in Hstep.
Qed.

End System_facts.

(** ** After the dispatcher has left *)

Section Stopped.
Variable py_call : nat → list pyval → outcome.








End Stopped.

(** ** One dispatcher at a time keeps the slots apart *)

Section One_dispatcher.
Variable py_call : nat → list pyval → outcome.

Lemma lookup_updated (l extra : list thread) (tid j : nat) (new t : thread) :
  (<[tid := new]> l ++ extra) !! j = Some t →
  (j = tid ∧ t = new) ∨ (j ≠ tid ∧ l !! j = Some t) ∨ t ∈ extra.
Proof.
  intros [Hl|[_ Hr]]%lookup_app_Some.
  - apply list_lookup_insert_Some in Hl as [(-> & -> & _)|[Hne Hl]]; [by left|].
    right. left. by split.
  - right. right. by eapply list_elem_of_lookup_2.
Qed.

Lemma ended_pending (t : thread) : dispatcher_ended t = true → pending t = [].
Proof. by destruct t as [[]| |]. Qed.

Lemma busy_sublist_keeps (s : system) (st' : MTFIFO) (ts : list thread)
    (tr : list (actor * event)) :
  slots_distinct (pool s) → pending_is_free s →
  BUSY_THREADS st' `sublist_of` BUSY_THREADS (pool s) →
  (∀ j t, ts !! j = Some t → pending t = [] ∨ ∃ j', threads s !! j' = Some t) →
  slots_distinct st' ∧ pending_is_free (mkSystem st' ts tr).
Proof.
  intros Hd Hp Hsub Hts.
  assert (Hsub' : map index (BUSY_THREADS st') `sublist_of` map index (BUSY_THREADS (pool s)))
    by (change map with (@fmap list _) in *; by apply fmap_sublist).
  split; [by eapply sublist_NoDup|].
  intros j t Ht. simpl in Ht. destruct (Hts j t Ht) as [->|[j' Hj']].
  - split; [constructor|]. intros i Hi. by apply elem_of_nil in Hi.
  - destruct (Hp j' t Hj') as [Hnd Hfree]. split; [done|].
    intros i Hi Hin. apply (Hfree i Hi). simpl. by eapply sublist_subseteq.
Qed.

Lemma same_busy_keeps (s : system) (st' : MTFIFO) (ts : list thread)
    (tr : list (actor * event)) :
  slots_distinct (pool s) → pending_is_free s →
  BUSY_THREADS st' = BUSY_THREADS (pool s) →
  (∀ j t, ts !! j = Some t → pending t = [] ∨ ∃ j', threads s !! j' = Some t) →
  slots_distinct st' ∧ pending_is_free (mkSystem st' ts tr).
Proof. intros Hd Hp Hb. apply (busy_sublist_keeps s); [done..|by rewrite Hb]. Qed.

Lemma appended_threads (l extra : list thread) (j : nat) (t : thread) :
  (∀ x, x ∈ extra → pending x = []) →
  (l ++ extra) !! j = Some t → pending t = [] ∨ ∃ j', l !! j' = Some t.
Proof.
  intros Hex [Hl|[_ Hr]]%lookup_app_Some; [right; by exists j|].
  left. by eapply Hex, list_elem_of_lookup_2.
Qed.

Lemma updated_threads (l : list thread) (tid j : nat) (new t : thread) :
  pending new = [] →
  <[tid := new]> l !! j = Some t → pending t = [] ∨ ∃ j', l !! j' = Some t.
Proof.
  intros Hnew [(-> & -> & _)|[_ Hl]]%list_lookup_insert_Some; [by left|].
  right. by exists j.
Qed.

(** One move keeps the slots distinct, provided at most one dispatcher
    loop is alive when it is made. *)
Lemma distinct_step (a : action) (s s' : system) :
  slots_distinct (pool s) → pending_is_free s → one_dispatcher s →
  sys_step py_call a s = Some s' →
  slots_distinct (pool s') ∧ pending_is_free s'.
Proof.
  intros Hd Hp Hone.
  destruct a as [event cb|Threads|reqs| | |tid]; simpl.
  - intros [= <-]. apply (same_busy_keeps s); [done..| |by eauto].
    by destruct (on_keeps event cb (pool s)) as (_ & _ & _ & ->).
  - intros [= <-]. apply (same_busy_keeps s); [done..|by eauto].
  - unfold add_requests.
    destruct (put_requests (as_list reqs) (UNHANDLED (pool s))) as [q [e|]].
    + intros [= <-]. apply (same_busy_keeps s); [done..|].
      intros j t. rewrite app_nil_r. by eauto.
    + unfold Start. simpl. destruct (running (pool s)); intros [= <-];
        (apply (same_busy_keeps s); [done..|]); intros j t; apply appended_threads;
        intros x Hx; simpl in Hx;
        repeat (apply elem_of_cons in Hx as [->|Hx]; [done|]); by apply elem_of_nil in Hx.
  - unfold Start. destruct (running (pool s)); intros [= <-];
      (apply (same_busy_keeps s); [done..|]); intros j t; apply appended_threads;
      intros x Hx; simpl in Hx;
      repeat (apply elem_of_cons in Hx as [->|Hx]; [done|]); by apply elem_of_nil in Hx.
  - unfold Stop_flag. destruct (running (pool s)); intros [= <-];
      (apply (same_busy_keeps s); [done..|]); intros j t; apply appended_threads;
      intros x Hx; simpl in Hx;
      repeat (apply elem_of_cons in Hx as [->|Hx]; [done|]); by apply elem_of_nil in Hx.
  - destruct (threads s !! tid) as [t0|] eqn:Htid; [|done].
    destruct t0 as [pc|idx req pc|[|]]; simpl.
    + (* the dispatcher *)
      destruct pc as [| |[|idx rest]|req idx rest|]; simpl; try done.
      * destruct (running (pool s)); intros [= <-];
          (apply (same_busy_keeps s); [done..|]); intros j t; rewrite app_nil_r;
          by apply updated_threads.
      * assert (Hfree : NoDup (get_free_threads (pool s)) ∧
                  ∀ i, i ∈ get_free_threads (pool s) →
                       i ∉ map index (BUSY_THREADS (pool s))).
        { split; [apply NoDup_filter, NoDup_seq|].
          intros i Hi. by apply get_free_threads_spec in Hi as [_ Hi]. }
        destruct (get_free_threads (pool s)) as [|i0 free] eqn:Hf;
          [|destruct (UNHANDLED (pool s))]; intros [= <-];
          try (apply (same_busy_keeps s); [done..|]; intros j t; rewrite app_nil_r;
               by apply updated_threads).
        split; [done|]. intros j t Ht. simpl in Ht. rewrite app_nil_r in Ht.
        apply list_lookup_insert_Some in Ht as [(<- & <- & _)|[_ Hl]]; [done|].
        by apply (Hp j).
      * intros [= <-]. apply (same_busy_keeps s); [done..|]. intros j t. rewrite app_nil_r.
        by apply updated_threads.
      * destruct (UNHANDLED (pool s)) as [|req q]; intros [= <-].
        { apply (same_busy_keeps s); [done..|]. intros j t. rewrite app_nil_r.
          by apply updated_threads. }
        split; [done|]. intros j t Ht. simpl in Ht. rewrite app_nil_r in Ht.
        apply list_lookup_insert_Some in Ht as [(<- & <- & _)|[_ Hl]].
        -- by apply (Hp tid _ Htid).
        -- by apply (Hp j).
      * intros [= <-]. simpl.
        destruct (Hp tid _ Htid) as [Hnd Hfree]. simpl in Hnd, Hfree.
        apply NoDup_cons in Hnd as [Hidx Hrest].
        assert (Hnew : idx ∉ map index (BUSY_THREADS (pool s)))
          by (apply Hfree; left).
        split.
        -- unfold slots_distinct, handle_request. destruct (pool s); simpl in *.
           rewrite map_app. apply NoDup_app. split; [done|]. split.
           ++ intros x Hx [->|[]%elem_of_nil]%elem_of_cons. done.
           ++ apply NoDup_singleton.
        -- intros j t Ht. simpl in Ht.
           apply lookup_updated in Ht as [[-> ->]|[[Hne Hl]|Hin]].
           ++ simpl. split; [done|]. intros i Hi Hin.
              unfold handle_request in Hin. destruct (pool s); simpl in *.
              rewrite map_app in Hin. apply elem_of_app in Hin as [Hin|Hin].
              ** apply (Hfree i); [by right|done].
              ** apply list_elem_of_singleton in Hin. by subst i.
           ++ assert (Hend : dispatcher_ended t = true).
              { destruct (dispatcher_ended t) eqn:He; [done|].
                destruct Hne. by apply (Hone j tid t _ Hl Htid). }
              rewrite (ended_pending t Hend). split; [constructor|].
              intros i Hi. by apply elem_of_nil in Hi.
           ++ apply list_elem_of_singleton in Hin as ->. simpl. split; [constructor|].
              intros i Hi. by apply elem_of_nil in Hi.
    + (* a worker *)
      pose proof (worker_step_keeps py_call (pool s) idx req pc) as H.
      destruct pc; try done;
        destruct (worker_step py_call (pool s) idx req _) as [[st pc'] evs];
        intros [= <-]; destruct H as (_ & _ & _ & Hb);
        (apply (busy_sublist_keeps s); [done..|]); intros j t; by apply updated_threads.
    + done.
    + intros [= <-]. apply (same_busy_keeps s); [done..|]. intros j t. by apply updated_threads.
Qed.

(** In every run in which at most one dispatcher loop is alive at each
    move, no slot index is in two busy records. *)
Lemma one_dispatcher_keeps_slots_distinct (schedule : list action) :
  ∀ s s',
    slots_distinct (pool s) → pending_is_free s →
    always py_call one_dispatcher schedule s →
    run py_call schedule s = Some s' →
    slots_distinct (pool s') ∧ pending_is_free s'.
Proof.
  induction schedule as [|a schedule IH]; intros s s' Hd Hp Hone; simpl.
  - by intros [= <-].
  - simpl in Hone. destruct Hone as [Hone Hrest].
    destruct (sys_step py_call a s) as [s1|] eqn:Hstep; [|done].
    intros Hrun. destruct (distinct_step a s s1 Hd Hp Hone Hstep) as [Hd1 Hp1].
    by apply (IH s1 s').
Qed.

Lemma booted_eq (handlers : list pyval) :
  booted handlers
  = mkSystem (mkMTFIFO (PyList handlers) (length handlers) [] []
                (PyFun DefaultSuccess) (PyFun DefaultError) (PyFun DefaultEnd) false None)
      [] [].
Proof.
  unfold booted, boot. rewrite (init_keeps_list _ handlers); [done|].
  unfold options_with. by rewrite lookup_singleton_eq.
Qed.

(** From construction on: as long as a second dispatcher loop is never
    alive next to the first, each slot index is in at most one busy
    record. *)
Lemma slots_distinct_with_one_dispatcher (handlers : list pyval)
    (schedule : list action) (s' : system) :
  always py_call one_dispatcher schedule (booted handlers) →
  run py_call schedule (booted handlers) = Some s' →
  slots_distinct (pool s').
Proof.
  intros Hone Hrun.
  assert (Hd : slots_distinct (pool (booted handlers)))
    by (rewrite booted_eq; constructor).
  assert (Hp : pending_is_free (booted handlers))
    by (rewrite booted_eq; by intros tid t [=]).
  by destruct (one_dispatcher_keeps_slots_distinct schedule (booted handlers) s' Hd Hp Hone Hrun).
Qed.

End One_dispatcher.

(** ** Claims on construction and on added workers *)

(** C5, as the claim states it, fails: the constructor accepts an empty
    list of handlers and builds a pool with no slot. *)
Lemma empty_worker_list_is_accepted :
  __init__ (options_with [])
  = inr (mkMTFIFO (PyList []) 0 [] []
           (PyFun DefaultSuccess) (PyFun DefaultError) (PyFun DefaultEnd) false None).
Proof. apply init_keeps_list. unfold options_with. by rewrite lookup_singleton_eq. Qed.

(** C5, amended. Without the 'THREADS' option the constructor raises
    [ValueError] to its caller. With a list of [N] handlers, [N = 0]
    included, it succeeds with [N] slots, and no later move of the
    program changes that number. *)
Theorem init_needs_the_THREADS_option (py_call : nat → list pyval → outcome)
    (options : gmap string pyval) :
  (options !! "THREADS" = None →
   __init__ options = inl (ValueError "THREADS param must be defined")) ∧
  (∀ handlers, options !! "THREADS" = Some (PyList handlers) →
     ∃ st, __init__ options = inr st ∧
           boot options = inr (mkSystem st [] []) ∧
           THREADS st = PyList handlers ∧
           thread_count st = length handlers ∧
           ∀ schedule s', run py_call schedule (mkSystem st [] []) = Some s' →
             thread_count (pool s') = length handlers).
Proof.
  split.
  - intros H. unfold __init__. by rewrite H.
  - intros handlers H. eexists. split; [by apply init_keeps_list|].
    split; [unfold boot; by rewrite (init_keeps_list _ _ H)|].
    split; [done|]. split; [done|].
    intros schedule s' Hrun. by apply run_thread_count in Hrun as [-> _].
Qed.

Lemma init_needs_the_THREADS_option_witness :
  __init__ ∅ = inl (ValueError "THREADS param must be defined") ∧
  ∃ st, __init__ (options_with [thread_func; thread_func]) = inr st ∧
        thread_count st = 2.
Proof.
  split.
  - apply (init_needs_the_THREADS_option demo_call ∅). apply lookup_empty.
  - destruct (init_needs_the_THREADS_option demo_call (options_with [thread_func; thread_func]))
      as [_ H].
    destruct (H [thread_func; thread_func]) as (st & Hinit & _ & _ & Hcount & _).
    + unfold options_with. apply lookup_singleton_eq.
    + exists st. split; [exact Hinit|exact Hcount].
Defined.

(** C9. On a pool built from a list of one handler, [add_threads] with a
    handler, alone or in a list, raises [AttributeError] at
    [self.THREADS.put(t)] and adds nothing: the object is as it was,
    still with one slot, and the free slots are still [[0]]. (So it is
    on every pool: [add_threads_raises], [add_threads_adds_nothing],
    [sys_step_thread_count].) *)
Theorem add_threads_raises_and_adds_nothing :
  let st := pool (booted [thread_func]) in
  let no_put := AttributeError "'list' object has no attribute 'put'" in
  add_threads (PyFun (UserFun 3)) st = (st, Some no_put) ∧
  add_threads (PyList [PyFun (UserFun 3); PyFun (UserFun 4)]) st = (st, Some no_put) ∧
  thread_count st = 1 ∧ get_free_threads st = [0] ∧
  ∃ s', sys_step demo_call (Call_add_threads (PyFun (UserFun 3))) (booted [thread_func])
        = Some s' ∧
        pool s' = st ∧ trace s' = [(Caller, EvRaised no_put)].
Proof.
  intros st no_put. repeat split. eexists. repeat split.
Qed.

(** ** Claims on whole runs of the program *)

(** C2. With one slot and two batches, the second submitted while the
    first one's drain check is inside [Stop()], two dispatcher loops are
    alive and both dispatch to slot 0: [BUSY_THREADS] holds two records
    of index 0, and two workers run on that slot at once. (As long as
    one dispatcher loop at most is alive, the slots do stay distinct:
    [slots_distinct_with_one_dispatcher].) *)
Theorem slot_zero_is_busy_twice :
  ∃ s, run demo_call two_batches_schedule (booted [thread_func]) = Some s ∧
       thread_count (pool s) = 1 ∧
       BUSY_THREADS (pool s) = [Busy 0 (task 2); Busy 0 (task 3)] ∧
       threads s !! 0 = Some (TDispatcher (DFor [])) ∧
       threads s !! 2 = Some (TDispatcher (DFor [])) ∧
       threads s !! 3 = Some (TWorker 0 (task 2) WCall) ∧
       threads s !! 4 = Some (TWorker 0 (task 3) WCall).
Proof.
  exists (after [thread_func] two_batches_schedule).
  by_running.
Qed.

(** C3. One batch of two tasks on two slots, submitted once: when both
    workers free their slot before either runs its drain check, each
    check finds the queue and the busy list empty, and the END callback
    is called twice. (One drain check alone does call [Stop()] and then
    END once: [checkIfDone_drained].) *)
Theorem END_is_called_twice_for_one_batch :
  ∃ s, run demo_call one_batch_schedule (booted [thread_func; thread_func]) = Some s ∧
       length (filter restarts one_batch_schedule) = 1 ∧
       UNHANDLED (pool s) = [] ∧ BUSY_THREADS (pool s) = [] ∧
       filter is_END (trace s)
       = [(Thread 1, EvCallback END (PyFun DefaultEnd) []);
          (Thread 2, EvCallback END (PyFun DefaultEnd) [])] ∧
       count_END s = 2.
Proof.
  exists (after [thread_func; thread_func] one_batch_schedule).
  by_running.
Qed.



(** ** The theorems above on the concrete program *)


Lemma task_lifecycle_order_example :
  ∃ st',
    task_lifecycle demo_call quiet (pool (booted [thread_func])) 0 (task 1)
    = (st', WDone None,
       [EvMarkBusy 0 (task 1);
        EvExec 0 (inr thread_func) (task 1);
        EvCallback SUCCESS (PyFun DefaultSuccess) [PyInt 1];
        EvFree 0;
        EvDrainCheck true true;
        EvStop false;
        EvCallback END (PyFun DefaultEnd) []]).
Proof. eexists. vm_compute. reflexivity. Qed.

Lemma worker_calls_the_slot_handler_witness :
  let st := pool (booted [thread_func]) in
  py_getitem (THREADS st) 0 = inr thread_func ∧
  ∃ st' uncaught evs,
    task_lifecycle demo_call quiet st 0 (task 1)
    = (st', WDone uncaught,
       EvMarkBusy 0 (task 1) :: EvExec 0 (inr thread_func) (task 1) :: evs) ∧
    (∃ rest, evs = EvCallback SUCCESS (request_success_callback st) [PyInt 1] :: rest) ∧
    PyFun (UserFun 7) ∉ callees (EvExec 0 (inr thread_func) (task 1) :: evs).
Proof.
  intros st.
  assert (Hget : py_getitem (THREADS st) 0 = inr thread_func) by reflexivity.
  split; [exact Hget|].
  destruct (worker_calls_the_slot_handler demo_call st 0 (task 1) thread_func Hget)
    as (_ & st' & uncaught & evs & Hrun & Hsucc & _ & Hfunc).
  exists st', uncaught, evs. split; [exact Hrun|]. split.
  - apply Hsucc. vm_compute. reflexivity.
  - apply (Hfunc {[ "params" := PyInt 1; "func" := PyFun (UserFun 7) ]}).
    + reflexivity.
    + vm_compute. reflexivity.
    + intros Hin. repeat (apply elem_of_cons in Hin as [Hin|Hin]; [discriminate Hin|]).
      by apply elem_of_nil in Hin.
Defined.


